(** * MySQL authentication backend of Salt: option resolution, the
      connection helper and the [auth] module.

    Shallow embedding of [salt/utils/mysql.py] and of what a caller gets
    from [salt/auth/mysql.py].

    Python values are a small universe [value]; dictionaries are finite maps
    with string keys.  Functions that may raise return an [outcome]; the
    utils module logs and talks to the database driver, so its functions live
    in a state-and-exception monad [M] over a [world] that records the log
    calls, the driver calls and the connections that are open.

    [salt/utils/mysql.py] compiles and is embedded function by function.
    [salt/auth/mysql.py] does not: the [if] statement on its line 72 has no
    colon.  The text of its [def auth] statement is kept as it is, and a call
    of [auth] is a call into a module that is compiled first.

    What the embedding takes for granted:
    - the name [__opts__] is bound to a dictionary in the utils module (the
      host binds it; the file does not);
    - dictionaries are compared by content; the order in which a Python
      dictionary is iterated shows only in the order of the debug lines;
    - the driver is deterministic: its answer to a call is a function of the
      calls made before;
    - what the interpreter does with objects it drops (finalisers, garbage
      collection) is not part of the model. *)

From Stdlib Require Import ZArith String Ascii List.
From stdpp Require Import base option gmap strings list fin_maps.

Local Open Scope string_scope.
Local Open Scope Z_scope.

#[local] Arguments String.append : simpl nomatch.

(** ** Python values and exceptions *)

#[local] Set Warnings "-register-all,-clear-no-such-hyp".

Inductive value : Type :=
| VNone
| VBool (b : bool)
| VInt (z : Z)
| VStr (s : string)
| VList (l : list value)
| VDict (d : gmap string value).

Inductive exn : Type :=
| TypeError
| KeyError (key : string)
| IndexError
| ValueError
| AttributeError
| NameError (name : string)
| OperationalError (msg : string)   (* the driver's OperationalError; [msg] is str(e) *)
| DriverError (cls msg : string)    (* any other exception class of the driver *)
| SyntaxError (lineno : nat).       (* raised when a module is compiled *)

Inductive outcome (A : Type) : Type :=
| Ok (a : A)
| Raise (e : exn).
Arguments Ok {A} a.
Arguments Raise {A} e.

(** [item in container], for a string [item]. *)
Definition is_str (item : string) (v : value) : bool :=
  match v with
  | VStr s => bool_decide (s = item)
  | _ => false
  end.

Definition py_contains (item : string) (container : value) : outcome bool :=
  match container with
  | VDict d => Ok (bool_decide (is_Some (d !! item)))
  | VStr s => Ok (match String.index 0 item s with Some _ => true | None => false end)
  | VList l => Ok (existsb (is_str item) l)
  | VNone | VBool _ | VInt _ => Raise TypeError
  end.

(** [container[key]], for a string [key]. *)
Definition py_getitem (container : value) (key : string) : outcome value :=
  match container with
  | VDict d =>
      match d !! key with
      | Some v => Ok v
      | None => Raise (KeyError key)
      end
  | _ => Raise TypeError
  end.

(** [d.get(key, dflt)] on a dictionary with string keys; [key] may be [None]. *)
Definition dict_get (d : gmap string value) (key : option string) (dflt : value) : value :=
  match key with
  | Some k => default dflt (d !! k)
  | None => dflt
  end.

(** ** The world: log calls, driver calls, open connections *)

Inductive log_level : Type := DEBUG | ERROR.

Record log_record : Type := LogRecord {
  logger : string;      (* the module whose [log] object was used *)
  level : log_level;
  message : string
}.

(** What reaches the driver.  A connection is named by the position of its
    [connect] call among the calls made so far. *)
Inductive driver_call : Type :=
| CallConnect (args : list value)
| CallCursor (conn : nat)
| CallExecute (conn : nat) (query : string)
| CallClose (conn : nat).

Record world : Type := World {
  log : list log_record;
  calls : list driver_call;
  open_conns : list nat
}.

Definition M (A : Type) : Type := world -> outcome A * world.

#[export] Instance M_ret : MRet M := fun A a w => (Ok a, w).
#[export] Instance M_bind : MBind M := fun A B k m w =>
  match m w with
  | (Ok a, w') => k a w'
  | (Raise e, w') => (Raise e, w')
  end.

Definition raise {A : Type} (e : exn) : M A := fun w => (Raise e, w).

Definition lift {A : Type} (o : outcome A) : M A := fun w => (o, w).

(** [try: body  except <class> as e: handler], with the class test given by
    [catches]: an exception the test rejects propagates unchanged. *)
Definition try_except {A : Type} (body : M A) (catches : exn -> bool)
    (handler : exn -> M A) : M A := fun w =>
  match body w with
  | (Ok a, w') => (Ok a, w')
  | (Raise e, w') => if catches e then handler e w' else (Raise e, w')
  end.

Definition log_call (name : string) (lvl : log_level) (msg : string) : M unit :=
  fun w => (Ok tt, World (log w ++ [LogRecord name lvl msg]) (calls w) (open_conns w)).

(** ** The driver

    [MySQLdb] is the third-party module bound at import time, or [None] when
    neither MySQLdb nor PyMySQL can be imported.  The driver and the server
    behind it answer each call as a function of the calls made before it. *)
Record MySQLdb_module : Type := {
  connect_answer : list driver_call -> list value -> outcome unit;
  cursor_answer : list driver_call -> nat -> outcome unit;
  (* [cur.execute(q)] sets [cur.rowcount]; the answer is that row count *)
  execute_answer : list driver_call -> nat -> string -> outcome Z
}.

(** Module-level names the functions read. *)
Record globals : Type := Globals {
  MySQLdb : option MySQLdb_module;
  utils_opts : gmap string value;   (* __opts__ of salt/utils/mysql.py *)
  auth_opts : gmap string value     (* __opts__ of salt/auth/mysql.py *)
}.

Definition MySQLdb_connect (drv : MySQLdb_module) (args : list value) : M nat :=
  fun w =>
    let conn := length (calls w) in
    match connect_answer drv (calls w) args with
    | Ok _ => (Ok conn, World (log w) (calls w ++ [CallConnect args]) (open_conns w ++ [conn]))
    | Raise e => (Raise e, World (log w) (calls w ++ [CallConnect args]) (open_conns w))
    end.

(** ** salt/utils/mysql.py *)

Module salt_utils_mysql.

Definition __name__ : string := "salt.utils.mysql".

Definition builtin_defaults : gmap string value :=
  <["hostname" := VStr "localhost"]>
  (<["username" := VStr "salt"]>
  (<["password" := VStr "salt"]>
  (<["database" := VStr "salt"]>
  (<["port" := VInt 3306]>
  (<["unix_socket" := VStr "/tmp/mysql.sock"]>
  (<["charset" := VStr "utf8"]>
  (<["ssl" := VDict ∅]> ∅))))))).

(** [defaults.update(custom_defaults)]: the custom value wins on a shared key. *)
Definition _get_mysql_defaults (custom_defaults : option (gmap string value))
    : gmap string value :=
  let defaults := builtin_defaults in
  match custom_defaults with
  | Some custom => custom ∪ defaults
  | None => defaults
  end.

(** One turn of [for attr in defaults], after the turns [earlier] stands for. *)
Definition options_loop_body (_opts : value) (attr : string) (dflt : value)
    (earlier : M (gmap string value)) : M (gmap string value) :=
  _options ← earlier;
  present ← lift (py_contains attr _opts);
  if negb present then
    _ ← log_call __name__ DEBUG ("Using default for MySQL " +:+ attr);
    mret (<[attr := dflt]> _options)
  else
    v ← lift (py_getitem _opts attr);
    mret (<[attr := v]> _options).

(** The parameter [options] is never read: the subsection is looked up in
    the module-level [__opts__].  The loop visits the keys of [defaults] in
    the order of the finite map, not in Python's insertion order; only the
    order of the debug lines depends on it. *)
Definition get_mysql_options (g : globals) (options_key : option string)
    (options : value) (custom_defaults : option (gmap string value)) : M value :=
  let defaults := _get_mysql_defaults custom_defaults in
  let _opts := dict_get (utils_opts g) options_key (VDict ∅) in
  _options ← map_fold (options_loop_body _opts) (mret ∅) defaults;
  mret (VDict _options).

(** What [connect] returns: the connection object or [False].  The object
    carries the driver whose methods it has. *)
Inductive connection : Type :=
| ConnFalse
| Conn (drv : MySQLdb_module) (conn : nat).

Definition is_OperationalError (e : exn) : bool :=
  match e with
  | OperationalError _ => true
  | _ => false
  end.

(** [str(e)] of a driver exception; the handler below is the only user. *)
Definition exn_str (e : exn) : string :=
  match e with
  | OperationalError msg => msg
  | DriverError _ msg => msg
  | _ => EmptyString
  end.

Definition connect (g : globals) (options : value) : M connection :=
  match options with
  | VNone =>
      _ ← log_call __name__ DEBUG "No options passed for connection";
      mret ConnFalse
  | _ =>
      match MySQLdb g with
      | None =>
          (* [MySQLdb.connect] raises AttributeError inside the [try]; the
             [except] clause then evaluates the name OperationalError, which
             no import has bound *)
          raise (NameError "OperationalError")
      | Some drv =>
          try_except
            (hostname ← lift (py_getitem options "hostname");
             username ← lift (py_getitem options "username");
             password ← lift (py_getitem options "password");
             database ← lift (py_getitem options "database");
             port ← lift (py_getitem options "port");
             unix_socket ← lift (py_getitem options "unix_socket");
             ssl ← lift (py_getitem options "ssl");
             conn ← MySQLdb_connect drv
                      [hostname; username; password; database; port; unix_socket; ssl];
             mret (Conn drv conn))
            is_OperationalError
            (fun e =>
               _ ← log_call __name__ ERROR (exn_str e);
               mret ConnFalse)
      end
  end.

(** [return bool(MySQLdb), <reason>]: a module object is true, [None] is
    false; the reason is empty when a driver was imported. *)
Definition __virtual__ (g : globals) : bool * string :=
  (match MySQLdb g with Some _ => true | None => false end,
   match MySQLdb g with
   | None => "No python mysql client installed."
   | Some _ => EmptyString
   end).

End salt_utils_mysql.

(** ** Compiling a module: the headers of compound statements

    Every compound statement and clause of Python ([if], [elif], [else],
    [while], [for], [try], [except], [finally], [with], [def], [class]) has a
    header that ends in a colon; a module with a header that has none is
    rejected by the compiler with SyntaxError, and nothing of it is ever run.

    The check below reads the physical lines in order, as the tokenizer
    does: it knows string literals (short and triple-quoted, with their
    backslash escapes), comments, open brackets and the backslash that joins
    a line to the next.  It reports the first line that certainly is such a
    header and has no colon at all: a line that starts outside any string
    and bracket, is not joined to the line before, has one of those keywords
    as its first word, holds no colon, and ends outside any string and
    bracket without a joining backslash.  The other ways in which a text can
    fail to compile are not looked at. *)

Definition backslash : ascii := ascii_of_nat 92.

Definition is_quote (c : ascii) : bool :=
  Ascii.eqb c "'" || Ascii.eqb c (ascii_of_nat 34).

Definition is_open_bracket (c : ascii) : bool :=
  Ascii.eqb c "(" || Ascii.eqb c "[" || Ascii.eqb c "{".

Definition is_close_bracket (c : ascii) : bool :=
  Ascii.eqb c ")" || Ascii.eqb c "]" || Ascii.eqb c "}".

Definition is_ident_char (c : ascii) : bool :=
  let n := nat_of_ascii c in
  ((97 <=? n) && (n <=? 122) || (65 <=? n) && (n <=? 90)
   || (48 <=? n) && (n <=? 57) || (n =? 95) || (128 <=? n))%nat.

Fixpoint strip_indent (line : string) : string :=
  match line with
  | String c rest => if Ascii.eqb c " " then strip_indent rest else line
  | EmptyString => EmptyString
  end.

Fixpoint take_ident (s : string) : string :=
  match s with
  | String c rest => if is_ident_char c then String c (take_ident rest) else EmptyString
  | EmptyString => EmptyString
  end.

Definition first_word (line : string) : string := take_ident (strip_indent line).

Definition compound_keywords : list string :=
  ["if"; "elif"; "else"; "while"; "for"; "try"; "except"; "finally"; "with"; "def"; "class"].

Fixpoint count_chars (p : ascii -> bool) (s : string) : nat :=
  match s with
  | String c rest => ((if p c then 1 else 0) + count_chars p rest)%nat
  | EmptyString => 0%nat
  end.

(** Where the tokenizer is: in code, in a short string opened by [q], or in
    a triple-quoted string opened by [q] three times. *)
Inductive lex : Type :=
| Code
| Str1 (q : ascii)
| Str3 (q : ascii).

Definition in_code (st : lex) : bool :=
  match st with
  | Code => true
  | _ => false
  end.

(** One physical line: the state, the number of open brackets and whether
    the line is joined to the next, at its end. *)
Fixpoint scan_line (st : lex) (depth : Z) (line : string) : lex * Z * bool :=
  match line with
  | EmptyString =>
      match st with
      | Str1 _ => (Code, depth, false)
      | _ => (st, depth, false)
      end
  | String c rest =>
      match st with
      | Code =>
          if is_quote c then
            match rest with
            | String c1 (String c2 rest') =>
                if Ascii.eqb c1 c && Ascii.eqb c2 c
                then scan_line (Str3 c) depth rest'
                else scan_line (Str1 c) depth rest
            | _ => scan_line (Str1 c) depth rest
            end
          else if Ascii.eqb c "#" then (Code, depth, false)
          else if Ascii.eqb c backslash then
            match rest with
            | EmptyString => (Code, depth, true)
            | _ => scan_line Code depth rest
            end
          else if is_open_bracket c then scan_line Code (depth + 1) rest
          else if is_close_bracket c then scan_line Code (depth - 1) rest
          else scan_line Code depth rest
      | Str1 q =>
          if Ascii.eqb c backslash then
            match rest with
            | EmptyString => (Str1 q, depth, false)
            | String _ rest' => scan_line (Str1 q) depth rest'
            end
          else if Ascii.eqb c q then scan_line Code depth rest
          else scan_line (Str1 q) depth rest
      | Str3 q =>
          if Ascii.eqb c backslash then
            match rest with
            | EmptyString => (Str3 q, depth, false)
            | String _ rest' => scan_line (Str3 q) depth rest'
            end
          else if Ascii.eqb c q then
            match rest with
            | String c1 (String c2 rest') =>
                if Ascii.eqb c1 q && Ascii.eqb c2 q
                then scan_line Code depth rest'
                else scan_line (Str3 q) depth rest
            | _ => scan_line (Str3 q) depth rest
            end
          else scan_line (Str3 q) depth rest
      end
  end.

(** Where the reader stands before a line. *)
Record reader : Type := Reader {
  state : lex;
  depth : Z;
  joined : bool
}.

Definition at_module_level : reader := Reader Code 0 false.

Definition read_line (st : reader) (line : string) : reader :=
  let '(state', depth', joined') := scan_line (state st) (depth st) line in
  Reader state' depth' joined'.

Definition header_without_colon (st : reader) (line : string) : bool :=
  in_code (state st) && (depth st =? 0) && negb (joined st)
  && existsb (String.eqb (first_word line)) compound_keywords
  && (count_chars (Ascii.eqb ":") line =? 0)%nat
  && in_code (state (read_line st line))
  && (depth (read_line st line) =? 0)
  && negb (joined (read_line st line)).

(** The lines from number [lineno] on. *)
Fixpoint check_headers (st : reader) (lineno : nat) (lines : list string) : outcome unit :=
  match lines with
  | [] => Ok tt
  | line :: rest =>
      if header_without_colon st line then Raise (SyntaxError lineno)
      else check_headers (read_line st line) (S lineno) rest
  end.

(** For comparison, lines 102 to 121 of salt/utils/mysql.py, the
    [def connect] statement, which compiles. *)
Definition connect_source : list string :=
  [ "def connect(options=None):";
    "    '''";
    "    Connect to MySQL database";
    "    '''";
    "    if options is None:";
    "        log.debug('No options passed for connection')";
    "        return False";
    EmptyString;
    "    try:";
    "        conn = MySQLdb.connect(options['hostname'],";
    "                               options['username'],";
    "                               options['password'],";
    "                               options['database'],";
    "                               options['port'],";
    "                               options['unix_socket'],";
    "                               options['ssl'])";
    "        return conn";
    "    except OperationalError as e:";
    "        log.error(e)";
    "        return False" ].

(** ** salt/auth/mysql.py

    Lines 59 to 82, the [def auth] statement, character for character; the
    lines before it are the module docstring, closed on line 50, the imports
    and the logger. *)

Module salt_auth_mysql.

Definition dq : string := String (ascii_of_nat 34) EmptyString.

Definition default_auth_sql : string :=
  "SELECT username FROM users WHERE username = " +:+ dq +:+ "{0}" +:+ dq
    +:+ " AND password = SHA2(" +:+ dq +:+ "{1}" +:+ dq +:+ ", 256)".

Definition auth_options_key : string := "mysql_auth".

Definition auth_defaults : gmap string value :=
  {[ "auth_sql" := VStr default_auth_sql ]}.

Definition first_line : nat := 59.

Definition auth_source : list string :=
  [ "def auth(username, password):";
    "    '''";
    "    Authenticate using a MySQL user table";
    "    '''";
    "    auth_options_key = " +:+ dq +:+ "mysql_auth" +:+ dq;
    "    auth_defaults = {'auth_sql': '" +:+ default_auth_sql +:+ "'}";
    "    _opts = salt.utils.mysql.get_mysql_options(auth_options_key, __opts__, auth_defaults)";
    EmptyString;
    "    if _opts is None:";
    "        return False";
    EmptyString;
    "    conn = salt.utils.mysql.connect(_opts)";
    EmptyString;
    "    if conn is False";
    "        log.error('MySQL connection failed')";
    "        return False";
    EmptyString;
    "    cur = conn.cursor()";
    "    cur.execute(_opts['auth_sql'].format(username, password))";
    EmptyString;
    "    if cur.rowcount == 1:";
    "        return True";
    EmptyString;
    "    return False" ].

(** Importing the module compiles it. *)
Definition import_module : outcome unit :=
  check_headers at_module_level first_line auth_source.

(** A call [auth(username, password)] by the host: the module is imported,
    then the function that its [def] statement binds is run.  [body] stands
    for that function. *)
Definition call_auth (body : globals -> string -> string -> M bool)
    (g : globals) (username password : string) : M bool :=
  fun w =>
    match import_module with
    | Raise e => (Raise e, w)
    | Ok _ => body g username password w
    end.

End salt_auth_mysql.

(** ** Notions the statements use *)

Import salt_utils_mysql salt_auth_mysql.

(** The keys the resolver knows: those of the built-in defaults and those of
    the custom defaults. *)
Definition recognized (custom_defaults : option (gmap string value)) (field : string) : Prop :=
  is_Some (builtin_defaults !! field) ∨ is_Some (custom_defaults ≫= (.!! field)).

(** Runtime value first, then custom default, then built-in default. *)
Definition precedence (runtime : gmap string value)
    (custom_defaults : option (gmap string value)) (field : string) : option value :=
  match runtime !! field with
  | Some v => Some v
  | None =>
      match custom_defaults ≫= (.!! field) with
      | Some v => Some v
      | None => builtin_defaults !! field
      end
  end.

(** The defaults with every key that the runtime subsection has replaced by
    the runtime value. *)
Definition override (runtime defaults : gmap string value) : gmap string value :=
  map_imap (fun k dflt => Some (default dflt (runtime !! k))) defaults.

Definition builtin_fields : list string :=
  ["hostname"; "username"; "password"; "database"; "port"; "unix_socket"; "charset"; "ssl"].

(** The positional arguments [connect] hands to the driver. *)
Definition connect_arguments (options : gmap string value) : list value :=
  omap (fun k => options !! k)
       ["hostname"; "username"; "password"; "database"; "port"; "unix_socket"; "ssl"].

Definition is_debug (r : log_record) : bool :=
  match level r with DEBUG => true | ERROR => false end.

Definition add_log (w : world) (lines : list log_record) : world :=
  World (log w ++ lines) (calls w) (open_conns w).

(** The keys [connect] reads, in the order it reads them. *)
Definition connect_keys : list string :=
  ["hostname"; "username"; "password"; "database"; "port"; "unix_socket"; "ssl"].

(** [options[k]] for each [k] of [keys], left to right, up to the first that raises. *)
Fixpoint getitems (options : value) (keys : list string) : outcome (list value) :=
  match keys with
  | [] => Ok []
  | k :: keys' =>
      match py_getitem options k with
      | Raise e => Raise e
      | Ok v =>
          match getitems options keys' with
          | Raise e => Raise e
          | Ok vs => Ok (v :: vs)
          end
      end
  end.

(** [None], a boolean or a number: the values that support neither [in] nor
    indexing. *)
Definition is_scalar (v : value) : bool :=
  match v with
  | VNone | VBool _ | VInt _ => true
  | _ => false
  end.

(** The debug line of the resolver for a field that falls back to its default. *)
Definition debug_line (attr : string) : log_record :=
  LogRecord "salt.utils.mysql" DEBUG ("Using default for MySQL " +:+ attr).

(** ** Concrete configurations and drivers *)

Definition quiet_world : world := World [] [] [].

(** The runtime configuration
    [{mysql_auth: {hostname: db1, auth_sql: SELECT 1 WHERE 1=0, verbose: True}}]. *)
Definition scenario_subsection : gmap string value :=
  <["hostname" := VStr "db1"]>
  (<["auth_sql" := VStr "SELECT 1 WHERE 1=0"]>
  (<["verbose" := VBool true]> ∅)).

Definition scenario_opts : gmap string value :=
  {[ "mysql_auth" := VDict scenario_subsection ]}.

(** [mysql_auth:] with nothing under it, as a YAML loader reads it. *)
Definition null_subsection_opts : gmap string value :=
  {[ "mysql_auth" := VNone ]}.

(** A server that accepts the connection and answers every query with [n] rows. *)
Definition answering_driver (n : Z) : MySQLdb_module :=
  {| connect_answer := fun _ _ => Ok tt;
     cursor_answer := fun _ _ => Ok tt;
     execute_answer := fun _ _ _ => Ok n |}.

(** A server that rejects the database credentials. *)
Definition refusing_driver : MySQLdb_module :=
  {| connect_answer := fun _ _ => Raise (OperationalError "(1045, Access denied for user salt)");
     cursor_answer := fun _ _ => Ok tt;
     execute_answer := fun _ _ _ => Ok 0 |}.

(** A server that accepts the connection and fails every query. *)
Definition failing_query_driver : MySQLdb_module :=
  {| connect_answer := fun _ _ => Ok tt;
     cursor_answer := fun _ _ => Ok tt;
     execute_answer := fun _ _ _ =>
       Raise (DriverError "ProgrammingError" "(1146, Table salt.users does not exist)") |}.

(** The default configuration in front of the driver [drv]. *)
Definition default_globals (drv : MySQLdb_module) : globals := Globals (Some drv) ∅ ∅.

(** A server that refuses the connection with an error that is not an
    OperationalError. *)
Definition broken_driver : MySQLdb_module :=
  {| connect_answer := fun _ _ => Raise (DriverError "InterfaceError" "(0, )");
     cursor_answer := fun _ _ => Ok tt;
     execute_answer := fun _ _ _ => Ok 0 |}.

(** A record without the keys [port] and [ssl]. *)
Definition options_without_port_and_ssl : gmap string value :=
  delete "port" (delete "ssl" builtin_defaults).

(** ** Running the monad *)

Lemma run_bind {A B : Type} (m : M A) (k : A -> M B) (w : world) :
  (m ≫= k) w =
  match m w with
  | (Ok a, w') => k a w'
  | (Raise e, w') => (Raise e, w')
  end.
Proof. reflexivity. Qed.

Lemma run_ret {A : Type} (a : A) (w : world) : (mret a : M A) w = (Ok a, w).
Proof. reflexivity. Qed.

Lemma add_log_nil (w : world) : add_log w [] = w.
Proof. destruct w as [l c o]. unfold add_log. simpl. by rewrite app_nil_r. Qed.

Lemma add_log_app (w : world) (l1 l2 : list log_record) :
  add_log (add_log w l1) l2 = add_log w (l1 ++ l2).
Proof. unfold add_log. simpl. by rewrite app_assoc. Qed.

(** ** The resolver *)

Lemma recognized_defaults (custom : option (gmap string value)) (field : string) :
  recognized custom field ↔ is_Some (_get_mysql_defaults custom !! field).
Proof.
  unfold recognized, _get_mysql_defaults. destruct custom as [cd|]; simpl.
  - rewrite lookup_union, union_is_Some. tauto.
  - split; [intros [H|[x H]]; [done|discriminate] | by left].
Qed.

Lemma defaults_lookup (custom : option (gmap string value)) (field : string) :
  _get_mysql_defaults custom !! field =
  match custom ≫= (.!! field) with
  | Some v => Some v
  | None => builtin_defaults !! field
  end.
Proof.
  unfold _get_mysql_defaults. destruct custom as [cd|]; simpl; [|done].
  rewrite lookup_union. by destruct (cd !! field), (builtin_defaults !! field).
Qed.

Lemma override_lookup (runtime defaults : gmap string value) (k : string) :
  override runtime defaults !! k =
  match defaults !! k with
  | Some dflt => Some (default dflt (runtime !! k))
  | None => None
  end.
Proof. unfold override. rewrite map_lookup_imap. by destruct (defaults !! k). Qed.

Lemma override_empty (defaults : gmap string value) : override ∅ defaults = defaults.
Proof.
  apply map_eq. intros k. rewrite override_lookup, lookup_empty.
  by destruct (defaults !! k).
Qed.

(** With a mapping as the subsection the loop raises nothing and builds
    [override]; it only adds debug lines. *)
Lemma options_loop_mapping (sub defaults : gmap string value) (w : world) :
  ∃ lines,
    map_fold (options_loop_body (VDict sub)) (mret ∅) defaults w
      = (Ok (override sub defaults), add_log w lines)
    ∧ forallb is_debug lines = true.
Proof.
  revert w.
  apply (map_fold_weak_ind
           (fun (r : M (gmap string value)) (m : gmap string value) =>
              ∀ w, ∃ lines, r w = (Ok (override sub m), add_log w lines)
                            ∧ forallb is_debug lines = true)).
  - intros w. exists []. rewrite add_log_nil. split; [|done].
    unfold override. by rewrite map_imap_empty.
  - intros attr dflt m r Hfresh IH w.
    destruct (IH w) as (lines & Hr & Hdbg).
    assert (override sub (<[attr:=dflt]> m)
            = <[attr:=default dflt (sub !! attr)]> (override sub m)) as ->
      by (unfold override; by apply map_imap_insert_Some).
    unfold options_loop_body. rewrite run_bind, Hr.
    cbn [py_contains py_getitem lift].
    destruct (sub !! attr) as [v|] eqn:Hv; simpl.
    + exists lines. split; [reflexivity | done].
    + exists (lines ++ [LogRecord salt_utils_mysql.__name__ DEBUG
                                  ("Using default for MySQL " +:+ attr)])%list.
      split.
      * rewrite <- add_log_app. reflexivity.
      * by rewrite forallb_app, Hdbg.
Qed.

(** Whatever the subsection is, the loop touches nothing but the log; when it
    ends normally its result has the keys of [defaults], and the only
    exception it can end with is TypeError. *)
Lemma options_loop_any (_opts : value) (defaults : gmap string value) (w : world) :
  ∃ lines,
    snd (map_fold (options_loop_body _opts) (mret ∅) defaults w) = add_log w lines
    ∧ match fst (map_fold (options_loop_body _opts) (mret ∅) defaults w) with
      | Ok r => dom r = dom defaults
      | Raise e => e = TypeError
      end.
Proof.
  revert w.
  apply (map_fold_weak_ind
           (fun (r : M (gmap string value)) (m : gmap string value) =>
              ∀ w, ∃ lines, snd (r w) = add_log w lines
                            ∧ match fst (r w) with
                              | Ok r' => dom r' = dom m
                              | Raise e => e = TypeError
                              end)).
  - intros w. exists []. by rewrite add_log_nil.
  - intros attr dflt m r Hfresh IH w.
    destruct (IH w) as (lines & Hw & Hres).
    unfold options_loop_body. rewrite run_bind.
    destruct (r w) as [[r'|e] w1]; simpl in Hw, Hres; subst; [|by exists lines].
    rewrite run_bind. unfold lift at 1.
    destruct (py_contains attr _opts) as [[|]|e] eqn:Hin; simpl.
    + rewrite run_bind. unfold lift.
      destruct (py_getitem _opts attr) as [v|e] eqn:Hget.
      * exists lines. split; [done|]. simpl. by rewrite !dom_insert_L, Hres.
      * exists lines. split; [done|]. simpl.
        destruct _opts; simpl in Hget; try congruence.
        simpl in Hin. destruct (d !! attr); [discriminate|].
        rewrite bool_decide_eq_false_2 in Hin by (by intros [? ?]). discriminate.
    + eexists. split; [apply add_log_app|]. simpl. by rewrite !dom_insert_L, Hres.
    + exists lines. split; [done|]. simpl.
      destruct _opts; simpl in Hin; congruence.
Qed.

Lemma get_mysql_options_mapping (g : globals) (options_key : option string)
    (options : value) (custom_defaults : option (gmap string value))
    (sub : gmap string value) (w : world) :
  dict_get (utils_opts g) options_key (VDict ∅) = VDict sub →
  ∃ lines,
    get_mysql_options g options_key options custom_defaults w
      = (Ok (VDict (override sub (_get_mysql_defaults custom_defaults))), add_log w lines)
    ∧ forallb is_debug lines = true.
Proof.
  intros Hsub. unfold get_mysql_options. rewrite Hsub.
  destruct (options_loop_mapping sub (_get_mysql_defaults custom_defaults) w)
    as (lines & Hloop & Hdbg).
  exists lines. split; [|done]. by rewrite run_bind, Hloop.
Qed.

Lemma get_mysql_options_any (g : globals) (options_key : option string)
    (options : value) (custom_defaults : option (gmap string value)) (w : world) :
  ∃ lines,
    snd (get_mysql_options g options_key options custom_defaults w) = add_log w lines
    ∧ match fst (get_mysql_options g options_key options custom_defaults w) with
      | Ok (VDict r) => dom r = dom (_get_mysql_defaults custom_defaults)
      | Ok _ => False
      | Raise e => e = TypeError
      end.
Proof.
  unfold get_mysql_options. rewrite run_bind.
  destruct (options_loop_any (dict_get (utils_opts g) options_key (VDict ∅))
              (_get_mysql_defaults custom_defaults) w) as (lines & Hw & Hres).
  exists lines.
  destruct (map_fold (options_loop_body _) (mret ∅) (_get_mysql_defaults custom_defaults) w)
    as [[r|e] w1]; simpl in *; by subst.
Qed.

(** C4.  Precedence law of the resolver: with a mapping (or nothing) under the
    options key, every recognized field of the resolved record holds the
    runtime value if the subsection has the field, else the custom default if
    there is one, else the built-in default. *)
Theorem precedence_law (g : globals) (options_key : option string) (options : value)
    (custom_defaults : option (gmap string value)) (sub : gmap string value)
    (w : world) (field : string) :
  dict_get (utils_opts g) options_key (VDict ∅) = VDict sub →
  recognized custom_defaults field →
  ∃ r w',
    get_mysql_options g options_key options custom_defaults w = (Ok (VDict r), w')
    ∧ is_Some (r !! field)
    ∧ r !! field = precedence sub custom_defaults field.
Proof.
  intros Hsub Hrec.
  destruct (get_mysql_options_mapping g options_key options custom_defaults sub w Hsub)
    as (lines & Hrun & _).
  apply recognized_defaults in Hrec. destruct Hrec as [dflt Hd].
  eexists _, _. split; [exact Hrun|].
  assert (override sub (_get_mysql_defaults custom_defaults) !! field
          = precedence sub custom_defaults field) as Heq.
  { rewrite override_lookup, Hd. unfold precedence.
    destruct (sub !! field) as [v|]; simpl; [done|].
    rewrite <- defaults_lookup. by rewrite Hd. }
  split; [|exact Heq].
  rewrite override_lookup, Hd. by eexists.
Qed.

Lemma precedence_law_witness :
  dict_get scenario_opts (Some "mysql_auth") (VDict ∅) = VDict scenario_subsection
  ∧ recognized (Some auth_defaults) "hostname"
  ∧ ∃ r w',
      get_mysql_options (Globals None scenario_opts ∅) (Some "mysql_auth") VNone
                        (Some auth_defaults) quiet_world = (Ok (VDict r), w')
      ∧ is_Some (r !! "hostname")
      ∧ r !! "hostname" = precedence scenario_subsection (Some auth_defaults) "hostname".
Proof.
  assert (recognized (Some auth_defaults) "hostname") as Hrec
    by (left; eexists; reflexivity).
  split; [reflexivity|]. split; [exact Hrec|].
  apply (precedence_law (Globals None scenario_opts ∅) (Some "mysql_auth") VNone
           (Some auth_defaults) scenario_subsection quiet_world "hostname");
    [reflexivity | exact Hrec].
Defined.

(** C5, as the code has it.  When the value under the options key is a mapping
    or is missing, the resolver returns a record, touching nothing but the
    log; the keys of the record are exactly the recognized fields, so the 8
    built-in fields are all there; and when the options key has no entry the
    record is the built-in defaults updated with the custom defaults. *)
Theorem resolver_total_on_mapping (g : globals) (options_key : option string)
    (options : value) (custom_defaults : option (gmap string value))
    (sub : gmap string value) (w : world) :
  dict_get (utils_opts g) options_key (VDict ∅) = VDict sub →
  ∃ r lines,
    get_mysql_options g options_key options custom_defaults w
      = (Ok (VDict r), add_log w lines)
    ∧ Forall (fun field => is_Some (r !! field)) builtin_fields
    ∧ (∀ field, is_Some (r !! field) ↔ recognized custom_defaults field)
    ∧ (options_key ≫= (utils_opts g !!.) = None →
       r = default ∅ custom_defaults ∪ builtin_defaults).
Proof.
  intros Hsub.
  destruct (get_mysql_options_mapping g options_key options custom_defaults sub w Hsub)
    as (lines & Hrun & _).
  assert (∀ field, is_Some (override sub (_get_mysql_defaults custom_defaults) !! field)
                   ↔ recognized custom_defaults field) as Hkeys.
  { intros field. rewrite recognized_defaults, override_lookup.
    destruct (_get_mysql_defaults custom_defaults !! field); split; intros [? ?]; by eauto. }
  eexists _, lines. split; [exact Hrun|]. split; [|split; [exact Hkeys|]].
  - unfold builtin_fields. repeat constructor; apply Hkeys; left; by eexists.
  - intros Habsent.
    assert (sub = ∅) as ->.
    { unfold dict_get in Hsub. destruct options_key as [k|]; simpl in Habsent.
      - rewrite Habsent in Hsub. simpl in Hsub. congruence.
      - congruence. }
    rewrite override_empty. unfold _get_mysql_defaults.
    destruct custom_defaults; simpl; [done|]. by rewrite (left_id_L ∅ (∪)).
Qed.

Lemma resolver_total_on_mapping_witness :
  dict_get scenario_opts (Some "mysql_auth") (VDict ∅) = VDict scenario_subsection
  ∧ ∃ r lines,
      get_mysql_options (Globals None scenario_opts ∅) (Some "mysql_auth") VNone
                        (Some auth_defaults) quiet_world
        = (Ok (VDict r), add_log quiet_world lines)
      ∧ Forall (fun field => is_Some (r !! field)) builtin_fields
      ∧ (∀ field, is_Some (r !! field) ↔ recognized (Some auth_defaults) field)
      ∧ (Some "mysql_auth" ≫= (scenario_opts !!.) = None →
         r = default ∅ (Some auth_defaults) ∪ builtin_defaults).
Proof.
  split; [reflexivity|].
  apply (resolver_total_on_mapping (Globals None scenario_opts ∅) (Some "mysql_auth") VNone
           (Some auth_defaults) scenario_subsection quiet_world).
  reflexivity.
Defined.

(** C5, as stated, fails: with [mysql_auth:] left empty in the configuration
    the membership test of the loop raises TypeError. *)
Lemma resolver_raises_on_null_subsection :
  get_mysql_options (Globals None null_subsection_opts ∅) (Some "mysql_auth") VNone None
                    quiet_world
  = (Raise TypeError, quiet_world).
Proof. vm_compute. reflexivity. Qed.

(** C6.  A key of the runtime subsection that is not a recognized field is
    not in the resolved record. *)
Theorem unrecognized_fields_dropped (g : globals) (options_key : option string)
    (options : value) (custom_defaults : option (gmap string value))
    (sub : gmap string value) (w : world) (key : string) :
  dict_get (utils_opts g) options_key (VDict ∅) = VDict sub →
  is_Some (sub !! key) →
  ¬ recognized custom_defaults key →
  ∃ r w',
    get_mysql_options g options_key options custom_defaults w = (Ok (VDict r), w')
    ∧ r !! key = None.
Proof.
  intros Hsub _ Hunknown.
  destruct (get_mysql_options_mapping g options_key options custom_defaults sub w Hsub)
    as (lines & Hrun & _).
  eexists _, _. split; [exact Hrun|].
  rewrite override_lookup.
  destruct (_get_mysql_defaults custom_defaults !! key) eqn:Hd; [|done].
  exfalso. apply Hunknown, recognized_defaults. by eexists.
Qed.

Lemma unrecognized_fields_dropped_witness :
  dict_get scenario_opts (Some "mysql_auth") (VDict ∅) = VDict scenario_subsection
  ∧ is_Some (scenario_subsection !! "verbose")
  ∧ ¬ recognized (Some auth_defaults) "verbose"
  ∧ ∃ r w',
      get_mysql_options (Globals None scenario_opts ∅) (Some "mysql_auth") VNone
                        (Some auth_defaults) quiet_world = (Ok (VDict r), w')
      ∧ r !! "verbose" = None.
Proof.
  assert (is_Some (scenario_subsection !! "verbose")) as Hin
    by (eexists; reflexivity).
  assert (¬ recognized (Some auth_defaults) "verbose") as Hunknown
    by (intros [[x Hx]|[x Hx]]; vm_compute in Hx; discriminate).
  split; [reflexivity|]. split; [exact Hin|]. split; [exact Hunknown|].
  apply (unrecognized_fields_dropped (Globals None scenario_opts ∅) (Some "mysql_auth") VNone
           (Some auth_defaults) scenario_subsection quiet_world "verbose");
    [reflexivity | exact Hin | exact Hunknown].
Defined.

(** C9.  The resolver never returns [None]: it ends with an exception or with
    a dictionary, so the [_opts is None] test of [auth] has nothing to catch. *)
Theorem get_mysql_options_never_None (g : globals) (options_key : option string)
    (options : value) (custom_defaults : option (gmap string value)) (w : world) :
  (∃ e, fst (get_mysql_options g options_key options custom_defaults w) = Raise e)
  ∨ (∃ r, fst (get_mysql_options g options_key options custom_defaults w) = Ok (VDict r)).
Proof.
  destruct (get_mysql_options_any g options_key options custom_defaults w)
    as (lines & _ & Hres).
  destruct (fst (get_mysql_options g options_key options custom_defaults w))
    as [[| | | | |r]|e]; try done; [right | left]; by eexists.
Qed.

(** C10.  The [options] argument has no influence on the result. *)
Theorem get_mysql_options_ignores_options (g : globals) (options_key : option string)
    (options1 options2 : value) (custom_defaults : option (gmap string value)) (w : world) :
  get_mysql_options g options_key options1 custom_defaults w
  = get_mysql_options g options_key options2 custom_defaults w.
Proof. reflexivity. Qed.

(** The resolver does read the module-level configuration. *)
Example ambient_opts_is_read :
  fst (get_mysql_options (Globals None scenario_opts ∅) (Some "mysql_auth") (VDict ∅)
                         None quiet_world)
  ≠ fst (get_mysql_options (Globals None ∅ ∅) (Some "mysql_auth") (VDict ∅)
                           None quiet_world).
Proof. vm_compute. discriminate. Qed.

(** ** Worked scenarios *)

(** [{mysql_auth: {hostname: db1, auth_sql: ...}}]: the two runtime values
    are taken, every other field keeps its default, [verbose] is dropped. *)
Example scenario_resolution :
  fst (get_mysql_options (Globals None scenario_opts ∅) (Some "mysql_auth") VNone
                         (Some auth_defaults) quiet_world)
  = Ok (VDict (<["hostname" := VStr "db1"]>
               (<["auth_sql" := VStr "SELECT 1 WHERE 1=0"]> builtin_defaults))).
Proof. vm_compute. reflexivity. Qed.

(** A string under the options key: [port] is a substring of it, and
    indexing the string with a key raises. *)
Example resolver_raises_on_string_subsection :
  fst (get_mysql_options (Globals None {[ "mysql_auth" := VStr "port" ]} ∅)
                         (Some "mysql_auth") VNone None quiet_world)
  = Raise TypeError.
Proof. vm_compute. reflexivity. Qed.

(** ** Further properties of the utils module *)

Lemma getitems_not_operational (options : value) (keys : list string) (e : exn) :
  getitems options keys = Raise e → is_OperationalError e = false.
Proof.
  revert e. induction keys as [|k keys IH]; intros e; simpl; [discriminate|].
  destruct (py_getitem options k) as [v|e'] eqn:Hget.
  - destruct (getitems options keys) as [vs|e'']; [discriminate|].
    intros [= <-]. by apply IH.
  - intros [= <-]. destruct options; simpl in Hget; try by inversion Hget.
    destruct (d !! k); by inversion Hget.
Qed.

(** [connect] on options that are not [None], with a driver: the lookups
    first, then the call to the driver, whose OperationalError alone is
    turned into [False]. *)
Lemma connect_via_getitems (g : globals) (drv : MySQLdb_module) (options : value)
    (w : world) :
  MySQLdb g = Some drv →
  options ≠ VNone →
  connect g options w =
  match getitems options connect_keys with
  | Raise e => (Raise e, w)
  | Ok args =>
      let w' := World (log w) (calls w ++ [CallConnect args]) (open_conns w) in
      match connect_answer drv (calls w) args with
      | Ok _ =>
          (Ok (Conn drv (length (calls w))),
           World (log w) (calls w') (open_conns w ++ [length (calls w)]))
      | Raise e =>
          if is_OperationalError e
          then (Ok ConnFalse, add_log w' [LogRecord "salt.utils.mysql" ERROR (exn_str e)])
          else (Raise e, w')
      end
  end.
Proof.
  intros Hdrv Hsome.
  assert (connect g options w =
          try_except
            (hostname ← lift (py_getitem options "hostname");
             username ← lift (py_getitem options "username");
             password ← lift (py_getitem options "password");
             database ← lift (py_getitem options "database");
             port ← lift (py_getitem options "port");
             unix_socket ← lift (py_getitem options "unix_socket");
             ssl ← lift (py_getitem options "ssl");
             conn ← MySQLdb_connect drv
                      [hostname; username; password; database; port; unix_socket; ssl];
             mret (Conn drv conn))
            is_OperationalError
            (fun e => _ ← log_call salt_utils_mysql.__name__ ERROR (exn_str e);
                      mret ConnFalse) w) as ->.
  { unfold connect. rewrite Hdrv. by destruct options. }
  unfold try_except, connect_keys, getitems, MySQLdb_connect.
  unfold mbind, M_bind, lift, mret, M_ret, log_call, add_log.
  destruct (py_getitem options "hostname") as [v1|e] eqn:H1.
  2:{ assert (is_OperationalError e = false) as ->; [|done].
      apply (getitems_not_operational options ["hostname"]). simpl. by rewrite H1. }
  destruct (py_getitem options "username") as [v2|e] eqn:H2.
  2:{ assert (is_OperationalError e = false) as ->; [|done].
      apply (getitems_not_operational options ["username"]). simpl. by rewrite H2. }
  destruct (py_getitem options "password") as [v3|e] eqn:H3.
  2:{ assert (is_OperationalError e = false) as ->; [|done].
      apply (getitems_not_operational options ["password"]). simpl. by rewrite H3. }
  destruct (py_getitem options "database") as [v4|e] eqn:H4.
  2:{ assert (is_OperationalError e = false) as ->; [|done].
      apply (getitems_not_operational options ["database"]). simpl. by rewrite H4. }
  destruct (py_getitem options "port") as [v5|e] eqn:H5.
  2:{ assert (is_OperationalError e = false) as ->; [|done].
      apply (getitems_not_operational options ["port"]). simpl. by rewrite H5. }
  destruct (py_getitem options "unix_socket") as [v6|e] eqn:H6.
  2:{ assert (is_OperationalError e = false) as ->; [|done].
      apply (getitems_not_operational options ["unix_socket"]). simpl. by rewrite H6. }
  destruct (py_getitem options "ssl") as [v7|e] eqn:H7.
  2:{ assert (is_OperationalError e = false) as ->; [|done].
      apply (getitems_not_operational options ["ssl"]). simpl. by rewrite H7. }
  cbv zeta. simpl.
  destruct (connect_answer drv (calls w) [v1; v2; v3; v4; v5; v6; v7]) as [[]|e]; [done|].
  by destruct (is_OperationalError e).
Qed.

Lemma getitems_present (r : gmap string value) (keys : list string) :
  Forall (fun k => is_Some (r !! k)) keys →
  getitems (VDict r) keys = Ok (omap (fun k => r !! k) keys).
Proof.
  induction 1 as [|k keys [v Hk] _ IH]; simpl; [done|].
  by rewrite Hk, IH.
Qed.

Lemma getitems_agree (r r' : gmap string value) (keys : list string) :
  Forall (fun k => r !! k = r' !! k) keys →
  getitems (VDict r) keys = getitems (VDict r') keys.
Proof.
  induction 1 as [|k keys Hk _ IH]; simpl; [done|]. by rewrite Hk, IH.
Qed.

(** X1.  [connect] reads seven keys of the options and nothing else: two
    records that agree on them ([charset] and any further key may differ) get
    the same result and leave the same world. *)
Theorem connect_reads_seven_keys (g : globals) (r r' : gmap string value) (w : world) :
  Forall (fun k => r !! k = r' !! k) connect_keys →
  connect g (VDict r) w = connect g (VDict r') w.
Proof.
  intros Hagree. destruct (MySQLdb g) as [drv|] eqn:Hdrv.
  - rewrite !(connect_via_getitems g drv) by done.
    by rewrite (getitems_agree r r' connect_keys Hagree).
  - unfold connect. by rewrite Hdrv.
Qed.

Lemma connect_reads_seven_keys_witness :
  Forall (fun k => builtin_defaults !! k
                   = (<["charset" := VStr "latin1"]> builtin_defaults) !! k) connect_keys
  ∧ connect (default_globals (answering_driver 1)) (VDict builtin_defaults) quiet_world
    = connect (default_globals (answering_driver 1))
              (VDict (<["charset" := VStr "latin1"]> builtin_defaults)) quiet_world.
Proof.
  assert (Forall (fun k => builtin_defaults !! k
                   = (<["charset" := VStr "latin1"]> builtin_defaults) !! k) connect_keys)
    as Hagree by (repeat constructor).
  split; [exact Hagree|].
  apply (connect_reads_seven_keys (default_globals (answering_driver 1)) builtin_defaults
           (<["charset" := VStr "latin1"]> builtin_defaults) quiet_world Hagree).
Defined.

Lemma defaults_not_empty (custom_defaults : option (gmap string value)) :
  _get_mysql_defaults custom_defaults ≠ ∅.
Proof.
  intros Hempty.
  assert (is_Some (_get_mysql_defaults custom_defaults !! "hostname")) as [v Hv]
    by (apply recognized_defaults; left; by eexists).
  rewrite Hempty, lookup_empty in Hv. discriminate Hv.
Qed.

(** With a scalar as the subsection the first turn of the loop raises
    TypeError, before anything is logged. *)
Lemma options_loop_scalar (_opts : value) (defaults : gmap string value) (w : world) :
  is_scalar _opts = true →
  defaults ≠ ∅ →
  map_fold (options_loop_body _opts) (mret ∅) defaults w = (Raise TypeError, w).
Proof.
  intros Hscalar. revert w.
  apply (map_fold_weak_ind
           (fun (r : M (gmap string value)) (m : gmap string value) =>
              ∀ w, (m = ∅ → r w = (Ok ∅, w))
                   ∧ (m ≠ ∅ → r w = (Raise TypeError, w)))).
  - intros w. split; [reflexivity | congruence].
  - intros attr dflt m r Hfresh IH w.
    split; [intros Hempty; by apply insert_non_empty in Hempty|]. intros _.
    unfold options_loop_body. rewrite run_bind.
    destruct (decide (m = ∅)) as [Hm|Hm].
    + rewrite (proj1 (IH w) Hm). rewrite run_bind. unfold lift at 1.
      by destruct _opts.
    + by rewrite (proj2 (IH w) Hm).
Qed.

Lemma get_mysql_options_scalar (g : globals) (options_key : option string)
    (options : value) (custom_defaults : option (gmap string value)) (w : world) :
  is_scalar (dict_get (utils_opts g) options_key (VDict ∅)) = true →
  get_mysql_options g options_key options custom_defaults w = (Raise TypeError, w).
Proof.
  intros Hscalar. unfold get_mysql_options.
  rewrite run_bind, (options_loop_scalar _ _ w Hscalar). reflexivity.
  apply defaults_not_empty.
Qed.

(** X11.  When the value under the options key is [None], a boolean or a
    number, the resolver always raises TypeError, whatever the custom
    defaults are, and it has logged nothing by then. *)
Theorem resolver_rejects_scalar_subsection (g : globals) (options_key : option string)
    (options : value) (custom_defaults : option (gmap string value)) (w : world) :
  is_scalar (dict_get (utils_opts g) options_key (VDict ∅)) = true →
  get_mysql_options g options_key options custom_defaults w = (Raise TypeError, w).
Proof. apply get_mysql_options_scalar. Qed.

Lemma resolver_rejects_scalar_subsection_witness :
  is_scalar (dict_get null_subsection_opts (Some "mysql_auth") (VDict ∅)) = true
  ∧ get_mysql_options (Globals None null_subsection_opts ∅) (Some "mysql_auth") VNone
                      (Some auth_defaults) quiet_world
    = (Raise TypeError, quiet_world).
Proof.
  split; [reflexivity|].
  apply (resolver_rejects_scalar_subsection (Globals None null_subsection_opts ∅)
           (Some "mysql_auth") VNone (Some auth_defaults) quiet_world).
  reflexivity.
Defined.

(** With a mapping as the subsection, the debug lines are those of the
    default keys the mapping lacks, in some order. *)
Lemma options_loop_debug_lines (sub defaults : gmap string value) (w : world) :
  ∃ lines,
    map_fold (options_loop_body (VDict sub)) (mret ∅) defaults w
      = (Ok (override sub defaults), add_log w lines)
    ∧ lines ≡ₚ debug_line <$> elements (dom defaults ∖ dom sub).
Proof.
  revert w.
  apply (map_fold_weak_ind
           (fun (r : M (gmap string value)) (m : gmap string value) =>
              ∀ w, ∃ lines, r w = (Ok (override sub m), add_log w lines)
                            ∧ lines ≡ₚ debug_line <$> elements (dom m ∖ dom sub))).
  - intros w. exists []. rewrite add_log_nil. split.
    + unfold override. by rewrite map_imap_empty.
    + rewrite dom_empty_L.
      assert ((∅ : gset string) ∖ dom sub = ∅) as -> by (clear; set_solver).
      by rewrite elements_empty.
  - intros attr dflt m r Hfresh IH w.
    destruct (IH w) as (lines & Hr & Hperm).
    assert (override sub (<[attr:=dflt]> m)
            = <[attr:=default dflt (sub !! attr)]> (override sub m)) as ->
      by (unfold override; by apply map_imap_insert_Some).
    unfold options_loop_body. rewrite run_bind, Hr.
    cbn [py_contains py_getitem lift]. rewrite dom_insert_L.
    destruct (sub !! attr) as [v|] eqn:Hv.
    + exists lines. split; [reflexivity|].
      assert (({[attr]} ∪ dom m) ∖ dom sub = dom m ∖ dom sub) as ->; [|exact Hperm].
      assert (attr ∈ dom sub) as Hin by (apply elem_of_dom; by eexists).
      clear -Hin. set_solver.
    + exists (lines ++ [debug_line attr])%list. split.
      * rewrite <- add_log_app. reflexivity.
      * assert (({[attr]} ∪ dom m) ∖ dom sub = {[attr]} ∪ (dom m ∖ dom sub)) as ->.
        { assert (attr ∉ dom sub) as Hout by (by apply not_elem_of_dom).
          clear -Hout. set_solver. }
        rewrite elements_union_singleton.
        2:{ assert (attr ∉ dom m) as Hout by (by apply not_elem_of_dom).
            clear -Hout. set_solver. }
        rewrite fmap_cons, Hperm. apply Permutation_app_comm.
Qed.

(** X13.  With a mapping (or nothing) under the options key, the resolver
    writes exactly one debug line for each recognized field the mapping does
    not have, and no other line; it touches nothing but the log. *)
Theorem resolver_debug_lines (g : globals) (options_key : option string)
    (options : value) (custom_defaults : option (gmap string value))
    (sub : gmap string value) (w : world) :
  dict_get (utils_opts g) options_key (VDict ∅) = VDict sub →
  ∃ lines,
    snd (get_mysql_options g options_key options custom_defaults w) = add_log w lines
    ∧ lines ≡ₚ debug_line <$>
                 elements (dom (_get_mysql_defaults custom_defaults) ∖ dom sub).
Proof.
  intros Hsub. unfold get_mysql_options. rewrite Hsub.
  destruct (options_loop_debug_lines sub (_get_mysql_defaults custom_defaults) w)
    as (lines & Hloop & Hperm).
  exists lines. split; [|exact Hperm]. by rewrite run_bind, Hloop.
Qed.

Lemma resolver_debug_lines_witness :
  dict_get scenario_opts (Some "mysql_auth") (VDict ∅) = VDict scenario_subsection
  ∧ ∃ lines,
      snd (get_mysql_options (Globals None scenario_opts ∅) (Some "mysql_auth") VNone
                             (Some auth_defaults) quiet_world)
        = add_log quiet_world lines
      ∧ lines ≡ₚ debug_line <$>
                   elements (dom (_get_mysql_defaults (Some auth_defaults))
                             ∖ dom scenario_subsection).
Proof.
  split; [reflexivity|].
  apply (resolver_debug_lines (Globals None scenario_opts ∅) (Some "mysql_auth") VNone
           (Some auth_defaults) scenario_subsection quiet_world).
  reflexivity.
Defined.

(** Whatever the subsection is, every line the loop writes is the debug line
    of one of the default keys. *)
Lemma options_loop_only_debug (_opts : value) (defaults : gmap string value) (w : world) :
  ∃ lines,
    snd (map_fold (options_loop_body _opts) (mret ∅) defaults w) = add_log w lines
    ∧ Forall (fun line => ∃ attr, line = debug_line attr ∧ is_Some (defaults !! attr))
             lines.
Proof.
  revert w.
  apply (map_fold_weak_ind
           (fun (r : M (gmap string value)) (m : gmap string value) =>
              ∀ w, ∃ lines, snd (r w) = add_log w lines
                            ∧ Forall (fun line => ∃ attr, line = debug_line attr
                                                          ∧ is_Some (m !! attr)) lines)).
  - intros w. exists []. by rewrite add_log_nil.
  - intros attr dflt m r Hfresh IH w.
    destruct (IH w) as (lines & Hw & Hlines).
    assert (Forall (fun line => ∃ a, line = debug_line a
                                     ∧ is_Some (<[attr:=dflt]> m !! a)) lines) as Hlines'.
    { eapply Forall_impl; [exact Hlines|]. intros line (a & -> & [v Ha]).
      exists a. split; [reflexivity|].
      destruct (decide (attr = a)) as [->|Hne]; [congruence|].
      rewrite lookup_insert_ne by done. by eexists. }
    unfold options_loop_body. rewrite run_bind.
    destruct (r w) as [[r'|e] w1]; simpl in Hw; subst; [|by exists lines].
    rewrite run_bind. unfold lift at 1.
    destruct (py_contains attr _opts) as [[|]|e]; simpl.
    + rewrite run_bind. unfold lift.
      destruct (py_getitem _opts attr) as [v|e]; by exists lines.
    + exists (lines ++ [debug_line attr])%list. split; [apply add_log_app|].
      apply Forall_app. split; [exact Hlines'|].
      apply Forall_cons. split; [|by apply Forall_nil].
      exists attr. split; [reflexivity|]. rewrite lookup_insert_eq. by eexists.
    + by exists lines.
Qed.

(** X14.  On every path, also when it raises, the resolver leaves the driver
    alone: its whole effect is a list of debug lines, each for a recognized
    field, and it never logs at error level. *)
Theorem resolver_only_logs_debug (g : globals) (options_key : option string)
    (options : value) (custom_defaults : option (gmap string value)) (w : world) :
  ∃ lines,
    snd (get_mysql_options g options_key options custom_defaults w) = add_log w lines
    ∧ Forall (fun line => ∃ attr, line = debug_line attr
                                  ∧ recognized custom_defaults attr) lines.
Proof.
  destruct (options_loop_only_debug (dict_get (utils_opts g) options_key (VDict ∅))
              (_get_mysql_defaults custom_defaults) w) as (lines & Hw & Hlines).
  exists lines. split.
  - unfold get_mysql_options. rewrite run_bind.
    destruct (map_fold (options_loop_body _) (mret ∅)
                (_get_mysql_defaults custom_defaults) w) as [[r|e] w1]; exact Hw.
  - eapply Forall_impl; [exact Hlines|]. intros line (attr & -> & Hin).
    exists attr. split; [reflexivity|]. by apply recognized_defaults.
Qed.

Lemma getitems_first_missing (r : gmap string value) (before after : list string)
    (k0 : string) :
  Forall (fun k => is_Some (r !! k)) before →
  r !! k0 = None →
  getitems (VDict r) (before ++ k0 :: after) = Raise (KeyError k0).
Proof.
  intros Hbefore Hmissing.
  induction Hbefore as [|k before [v Hk] _ IH]; simpl.
  - by rewrite Hmissing.
  - by rewrite Hk, IH.
Qed.

(** X2.  A record that lacks one of the seven keys makes [connect] raise
    KeyError for the first missing key in the order in which the keys are
    read: the handler of [connect] does not catch it, the driver is not
    called and nothing is logged. *)
Theorem connect_missing_key (g : globals) (drv : MySQLdb_module)
    (r : gmap string value) (w : world) (before after : list string) (k0 : string) :
  MySQLdb g = Some drv →
  connect_keys = (before ++ k0 :: after)%list →
  Forall (fun k => is_Some (r !! k)) before →
  r !! k0 = None →
  connect g (VDict r) w = (Raise (KeyError k0), w).
Proof.
  intros Hdrv Hsplit Hbefore Hmissing.
  rewrite (connect_via_getitems g drv) by done.
  by rewrite Hsplit, (getitems_first_missing r before after k0 Hbefore Hmissing).
Qed.

Lemma connect_missing_key_witness :
  connect (default_globals (answering_driver 1)) (VDict options_without_port_and_ssl)
          quiet_world
  = (Raise (KeyError "port"), quiet_world).
Proof.
  apply (connect_missing_key (default_globals (answering_driver 1)) (answering_driver 1)
           options_without_port_and_ssl quiet_world
           ["hostname"; "username"; "password"; "database"] ["unix_socket"; "ssl"] "port").
  - reflexivity.
  - reflexivity.
  - repeat (apply Forall_cons; split; [eexists; reflexivity|]). by apply Forall_nil.
  - reflexivity.
Defined.

(** X3.  Of the exceptions of the driver's [connect], only OperationalError
    is turned into [False], after its text is logged at error level; any
    other exception leaves [connect] as it is, with no line logged.  Either
    way the driver was called once and no connection is registered. *)
Theorem connect_catches_only_OperationalError (g : globals) (drv : MySQLdb_module)
    (r : gmap string value) (w : world) (e : exn) :
  MySQLdb g = Some drv →
  Forall (fun k => is_Some (r !! k)) connect_keys →
  connect_answer drv (calls w) (connect_arguments r) = Raise e →
  connect g (VDict r) w
  = if is_OperationalError e
    then (Ok ConnFalse,
          World (log w ++ [LogRecord "salt.utils.mysql" ERROR (exn_str e)])
                (calls w ++ [CallConnect (connect_arguments r)]) (open_conns w))
    else (Raise e,
          World (log w) (calls w ++ [CallConnect (connect_arguments r)]) (open_conns w)).
Proof.
  intros Hdrv Hkeys Hanswer.
  rewrite (connect_via_getitems g drv) by done.
  rewrite (getitems_present r connect_keys Hkeys).
  change (omap (fun k => r !! k) connect_keys) with (connect_arguments r).
  cbv zeta. by rewrite Hanswer.
Qed.

Lemma connect_catches_only_OperationalError_witness :
  connect (default_globals broken_driver) (VDict builtin_defaults) quiet_world
  = (Raise (DriverError "InterfaceError" "(0, )"),
     World [] [CallConnect (connect_arguments builtin_defaults)] []).
Proof.
  apply (connect_catches_only_OperationalError (default_globals broken_driver)
           broken_driver builtin_defaults quiet_world
           (DriverError "InterfaceError" "(0, )")).
  - reflexivity.
  - unfold connect_keys.
    repeat (apply Forall_cons; split; [eexists; reflexivity|]). by apply Forall_nil.
  - reflexivity.
Defined.

(** X4.  When [__virtual__] reports that no client library was imported, it
    gives its reason, and [connect], called all the same with options that
    are not [None], does not return [False]: it raises NameError for the
    name OperationalError, which no import has bound, whatever the options
    hold, without a log line and without a driver call. *)
Theorem connect_without_client (g : globals) (options : value) (w : world) :
  fst (__virtual__ g) = false →
  options ≠ VNone →
  snd (__virtual__ g) = "No python mysql client installed."
  ∧ connect g options w = (Raise (NameError "OperationalError"), w).
Proof.
  intros Hvirtual Hsome. unfold __virtual__ in *.
  destruct (MySQLdb g) as [drv|] eqn:Hdrv; [discriminate Hvirtual|].
  split; [reflexivity|].
  unfold connect. rewrite Hdrv. by destruct options.
Qed.

Lemma connect_without_client_witness :
  snd (__virtual__ (Globals None ∅ ∅)) = "No python mysql client installed."
  ∧ connect (Globals None ∅ ∅) (VInt 0) quiet_world
    = (Raise (NameError "OperationalError"), quiet_world).
Proof.
  apply (connect_without_client (Globals None ∅ ∅) (VInt 0) quiet_world).
  - reflexivity.
  - discriminate.
Defined.

(** ** The auth module as it is *)

(** The compiler stops at line 72. *)
Lemma auth_source_rejected : import_module = Raise (SyntaxError 72).
Proof. vm_compute. reflexivity. Qed.

(** The same text with the colon put at the end of line 72 passes the check
    of the headers. *)
Example colon_makes_the_header :
  check_headers at_module_level first_line
                (<[13%nat := "    if conn is False:"]> auth_source)
  = Ok tt.
Proof. vm_compute. reflexivity. Qed.

Example connect_source_accepted :
  check_headers at_module_level 102 connect_source = Ok tt.
Proof. vm_compute. reflexivity. Qed.

Lemma call_auth_rejected (body : globals -> string -> string -> M bool)
    (g : globals) (username password : string) (w : world) :
  call_auth body g username password w = (Raise (SyntaxError 72), w).
Proof. unfold call_auth. by rewrite auth_source_rejected. Qed.

(** C1.  In front of a server that answers the query with exactly one row, a
    call of [auth] gives no verdict, so not the verdict true: the module does
    not compile, and the call ends with the SyntaxError of line 72, whatever
    function the [def] statement describes. *)
Theorem auth_gives_no_verdict (body : globals -> string -> string -> M bool)
    (username password : string) (w : world) :
  fst (call_auth body (default_globals (answering_driver 1)) username password w)
  = Raise (SyntaxError 72).
Proof. by rewrite call_auth_rejected. Qed.

(** C2.  In front of a server whose query stage fails, a call of [auth] does
    not return false: an exception reaches the caller, the SyntaxError of
    line 72, before any statement of the function is run. *)
Theorem auth_raises_to_the_caller (body : globals -> string -> string -> M bool)
    (username password : string) (w : world) :
  call_auth body (default_globals failing_query_driver) username password w
  = (Raise (SyntaxError 72), w).
Proof. apply call_auth_rejected. Qed.

(** C3.  In front of a server that refuses the connection, a call of [auth]
    neither logs nor returns false: it ends with the SyntaxError of line 72,
    the [if] statement that was to handle the refused connection, and the
    log is as it was. *)
Theorem auth_logs_nothing_returns_nothing
    (body : globals -> string -> string -> M bool) (username password : string)
    (w : world) :
  fst (call_auth body (default_globals refusing_driver) username password w)
    = Raise (SyntaxError 72)
  ∧ log (snd (call_auth body (default_globals refusing_driver) username password w))
    = log w.
Proof. by rewrite call_auth_rejected. Qed.

(** C7.  No query is sent: a call of [auth] leaves the calls made to the
    driver as they were, for every configuration and driver. *)
Theorem auth_sends_no_query (body : globals -> string -> string -> M bool)
    (g : globals) (username password : string) (w : world) :
  calls (snd (call_auth body g username password w)) = calls w.
Proof. by rewrite call_auth_rejected. Qed.
